(** * Reddit monitor for FirstMover: a shallow embedding of [monitor.py]

    The development follows the pipeline of the script: the keyword
    pre-filter ([is_relevant]), the per-record processing with its recency
    test ([process_post]), the classifier-based refinement ([llm_filter]),
    the dedup ledger ([load_seen], [save_seen]) and the driver ([main]).

    Modelling conventions.
    - A Python [str] is a Rocq [string]; a character is the code point
      U+0000..U+00FF it denotes.  On that range the case mappings,
      [str.strip], [str.isdigit] and [int] below are those of CPython.
    - Timestamps ([created_utc], the clock) are exact rationals ([Q]).
    - A Python [set] of keys is the duplicate-free list of its members in
      insertion order, together with an enumeration function standing for
      the hash-table order in which CPython iterates it.
    - The outside world (forum fetches, the clock, the classifier, the
      state file) is a record of functions, [env]. *)

From Stdlib Require Import Bool Arith NArith ZArith QArith Lia List.
From Stdlib Require Import Ascii String Permutation Sorted.
Import ListNotations.

Set Warnings "-abstract-large-number".

Close Scope Q_scope.
Open Scope string_scope.
Open Scope list_scope.

(** ** Python strings *)

Module PyStr.

Definition code (c : ascii) : N := N_of_ascii c.

Definition between (lo hi n : N) : bool := ((lo <=? n) && (n <=? hi))%N.

(** [str.lower] on one character: A-Z and the Latin-1 capitals
    U+00C0..U+00DE (without the multiplication sign U+00D7). *)
Definition lower_char (c : ascii) : ascii :=
  let n := code c in
  if between 65 90 n then ascii_of_N (n + 32)
  else if between 192 222 n && negb (n =? 215)%N then ascii_of_N (n + 32)
  else c.

Fixpoint lower (s : string) : string :=
  match s with
  | EmptyString => EmptyString
  | String c s' => String (lower_char c) (lower s')
  end.

(** [str.upper] on one character, as code points: three Latin-1
    characters have an upper-case form outside the range. *)
Definition upper_char (c : ascii) : list N :=
  let n := code c in
  if between 97 122 n then [(n - 32)%N]
  else if (n =? 181)%N then [924%N]
  else if (n =? 223)%N then [83%N; 83%N]
  else if (n =? 255)%N then [376%N]
  else if between 224 254 n && negb (n =? 247)%N then [(n - 32)%N]
  else [n].

Fixpoint upper (s : string) : list N :=
  match s with
  | EmptyString => []
  | String c s' => upper_char c ++ upper s'
  end.

Fixpoint codes (s : string) : list N :=
  match s with
  | EmptyString => []
  | String c s' => code c :: codes s'
  end.

(** [str.isspace] for one character. *)
Definition is_space (c : ascii) : bool :=
  let n := code c in
  between 9 13 n || between 28 32 n || (n =? 133)%N || (n =? 160)%N.

Fixpoint lstrip (s : string) : string :=
  match s with
  | EmptyString => EmptyString
  | String c s' => if is_space c then lstrip s' else s
  end.

(** Drops the trailing white space: a character is kept when something
    that is kept follows it, or when it is not white space itself. *)
Fixpoint rstrip (s : string) : string :=
  match s with
  | EmptyString => EmptyString
  | String c s' =>
      match rstrip s' with
      | EmptyString => if is_space c then EmptyString else String c EmptyString
      | r => String c r
      end
  end.

Definition strip (s : string) : string := rstrip (lstrip s).

(** [s.replace(" ", "")] *)
Fixpoint remove_spaces (s : string) : string :=
  match s with
  | EmptyString => EmptyString
  | String c s' =>
      if (code c =? 32)%N then remove_spaces s' else String c (remove_spaces s')
  end.

(** [s.split(",")]: always at least one field. *)
Fixpoint split_commas (s : string) : list string :=
  match s with
  | EmptyString => [EmptyString]
  | String c s' =>
      if (code c =? 44)%N then EmptyString :: split_commas s'
      else match split_commas s' with
           | [] => [String c EmptyString]
           | f :: fs => String c f :: fs
           end
  end.

Definition is_ascii_digit (c : ascii) : bool := between 48 57 (code c).

(** Characters for which [str.isdigit] holds: the decimal digits and the
    superscripts one, two and three. *)
Definition is_digit_char (c : ascii) : bool :=
  let n := code c in
  is_ascii_digit c || (n =? 178)%N || (n =? 179)%N || (n =? 185)%N.

Fixpoint all_chars (p : ascii -> bool) (s : string) : bool :=
  match s with
  | EmptyString => true
  | String c s' => p c && all_chars p s'
  end.

(** [s.isdigit()]: non-empty and made of digit characters. *)
Definition isdigit (s : string) : bool :=
  match s with
  | EmptyString => false
  | _ => all_chars is_digit_char s
  end.

(** The default of [sys.get_int_max_str_digits()]. *)
Definition INT_MAX_STR_DIGITS : nat := 4300.

Fixpoint decimal_value (acc : N) (s : string) : N :=
  match s with
  | EmptyString => acc
  | String c s' => decimal_value (10 * acc + (code c - 48))%N s'
  end.

(** [int(s)] on the strings the script passes to it, those with
    [s.isdigit()]; [None] stands for [ValueError]: a superscript digit is
    no decimal digit, and a literal of more than [INT_MAX_STR_DIGITS]
    digits is refused. *)
Definition int (s : string) : option N :=
  let t := strip s in
  match t with
  | EmptyString => None
  | _ =>
      if all_chars is_ascii_digit t
      then if (String.length t <=? INT_MAX_STR_DIGITS)%nat
           then Some (decimal_value 0 t) else None
      else None
  end.

(** [s[:n]] *)
Fixpoint take (n : nat) (s : string) : string :=
  match n, s with
  | S n', String c s' => String c (take n' s')
  | _, _ => EmptyString
  end.

(** [kw in s] *)
Fixpoint contains (kw s : string) : bool :=
  prefix kw s ||
  match s with
  | EmptyString => false
  | String _ s' => contains kw s'
  end.

(** [str(n)] for a non-negative integer. *)
Fixpoint digits_of (fuel : nat) (n : N) (acc : string) : string :=
  let acc' := String (ascii_of_N (48 + n mod 10)) acc in
  match fuel with
  | O => acc'
  | S fuel' => if (n <? 10)%N then acc' else digits_of fuel' (n / 10)%N acc'
  end.

Definition of_nat (n : nat) : string := digits_of n (N.of_nat n) EmptyString.

End PyStr.

(** ** Configuration *)

Definition SUBREDDITS : list string :=
  ["NYCapartments"; "movingtoNYC"; "brooklyn"; "astoria"].

Definition MAX_AGE_MINUTES : Q := 120%Q.

Definition KEYWORDS : list string :=
  [ "streeteasy"; "street easy";
    "apartment hunting"; "apartment search"; "apartment hunt";
    "new listing"; "new listings";
    "notifications for"; "get notified"; "set up alerts";
    "be the first"; "act fast"; "move fast"; "first to respond"; "first to inquire";
    "how do i find apartments"; "how to find apartments"; "tips for finding";
    "looking for an apartment"; "looking for a place to rent";
    "broker fee"; "no fee apartment";
    "moving to nyc soon"; "relocating to nyc"; "moving to new york";
    "apartment tips"; "rental search tips";
    "refreshing streeteasy"; "checking streeteasy"; "streeteasy notifications";
    "competitive rental"; "competitive market";
    "beat other applicants"; "getting outbid" ].

Definition SKIP_KEYWORDS : list string :=
  [ "roommate"; "room for rent"; "looking for roommate"; "sublease"; "sublet" ].

(** ** The keyword pre-filter *)

(** The first loop of [is_relevant]: [true] when it reaches its [return]. *)
Fixpoint skip_loop (kws : list string) (text_lower : string) : bool :=
  match kws with
  | [] => false
  | kw :: rest =>
      if PyStr.contains kw text_lower then true else skip_loop rest text_lower
  end.

(** The second loop: [matched.append(kw)] for each keyword found. *)
Fixpoint match_loop (kws : list string) (text_lower : string)
    (matched : list string) : list string :=
  match kws with
  | [] => matched
  | kw :: rest =>
      if PyStr.contains kw text_lower
      then match_loop rest text_lower (matched ++ [kw])
      else match_loop rest text_lower matched
  end.

Definition is_relevant (text : string) : bool * list string :=
  let text_lower := PyStr.lower text in
  if skip_loop SKIP_KEYWORDS text_lower then (false, [])
  else (true, match_loop KEYWORDS text_lower []).

(** ** Records fetched from the forum, and the items built from them *)

Inductive post_type := Post | Comment.

Definition type_name (t : post_type) : string :=
  match t with Post => "post" | Comment => "comment" end.

(** The [data] dictionary of a fetched record.  A field is [None] when the
    key is absent; a record without [data] has every field absent. *)
Record raw_data := {
  raw_id : option string;
  raw_created_utc : option Q;
  raw_title : option string;
  raw_selftext : option string;
  raw_body : option string;
  raw_subreddit : option string;
  raw_author : option string;
  raw_permalink : option string;
  raw_score : option Z
}.

(** [d.get(key, default)] *)
Definition get {A} (field : option A) (default : A) : A :=
  match field with Some v => v | None => default end.

(** The dictionary returned by [process_post]. *)
Record item := {
  id : string;
  type : post_type;
  subreddit : string;
  title : option string;
  text : string;
  author : string;
  url : string;
  created_utc : Q;
  matched_keywords : list string;
  score : Z
}.

(** ** The recency test and [process_post] *)

Definition age_minutes (now_utc created : Q) : Q :=
  ((now_utc - created) / 60)%Q.

(** [x > y] *)
Definition Qgtb (x y : Q) : bool := negb (Qle_bool x y).

Definition too_old (now_utc : Q) (data : raw_data) : bool :=
  Qgtb (age_minutes now_utc (get (raw_created_utc data) 0%Q)) MAX_AGE_MINUTES.

Definition process_post (now_utc : Q) (data : raw_data) (pt : post_type)
    : option item :=
  let post_id := get (raw_id data) "" in
  if too_old now_utc data then None
  else
    let text :=
      match pt with
      | Post => (get (raw_title data) "" ++ " " ++ get (raw_selftext data) "")%string
      | Comment => get (raw_body data) ""
      end in
    let '(relevant, keywords) := is_relevant text in
    if negb relevant then None
    else Some {|
      id := post_id;
      type := pt;
      subreddit := get (raw_subreddit data) "";
      title := match pt with Post => Some (get (raw_title data) "") | Comment => None end;
      text := PyStr.take 500 text;
      author := get (raw_author data) "";
      url := ("https://reddit.com" ++ get (raw_permalink data) "")%string;
      created_utc := get (raw_created_utc data) 0%Q;
      matched_keywords := keywords;
      score := get (raw_score data) 0%Z
    |}.

(** ** The classifier and [llm_filter] *)

(** The outcome of the request to the classification service: any exception
    on the way (connection, timeout, HTTP status, malformed JSON body), or
    the text of the first choice.  The service is a function of the prompt;
    the instructions in it are fixed, so it is given the numbered lines of
    the batch, the only part that varies. *)
Inductive call_result :=
| CallFailed
| CallReply (content : string).

(** What a run does to the outside world, in program order. *)
Inductive event :=
| EvSaveSeen (keys : list string)
| EvClassify (batch : list string)
| EvWriteOutput (items : list item).

(** The lines [[i] title | text] of the prompt, numbered from [i]. *)
Fixpoint posts_text_from (i : nat) (posts : list item) : list string :=
  match posts with
  | [] => []
  | p :: rest =>
      ("[" ++ PyStr.of_nat i ++ "] " ++ get (title p) "" ++ " | "
           ++ PyStr.take 300 (text p))%string
      :: posts_text_from (S i) rest
  end.

Definition posts_text (posts : list item) : list string := posts_text_from 0 posts.

Fixpoint codes_eqb (a b : list N) : bool :=
  match a, b with
  | [], [] => true
  | x :: a', y :: b' => (x =? y)%N && codes_eqb a' b'
  | _, _ => false
  end.

(** The fields of the reply that pass the [isdigit] test. *)
Definition digit_fields (response_text : string) : list string :=
  filter (fun x => PyStr.isdigit (PyStr.strip x))
         (PyStr.split_commas (PyStr.remove_spaces response_text)).

(** [int] over the kept fields, left to right; [None] when one raises. *)
Fixpoint ints_of (fields : list string) : option (list N) :=
  match fields with
  | [] => Some []
  | x :: rest =>
      match PyStr.int (PyStr.strip x) with
      | None => None
      | Some i =>
          match ints_of rest with
          | None => None
          | Some r => Some (i :: r)
          end
      end
  end.

Definition parse_indices (response_text : string) : option (list N) :=
  ints_of (digit_fields response_text).

(** [[posts[i] for i in indices if i < len(posts)]] *)
Fixpoint pick {A} (posts : list A) (indices : list N) : list A :=
  match indices with
  | [] => []
  | i :: rest =>
      if (i <? N.of_nat (List.length posts))%N
      then match nth_error posts (N.to_nat i) with
           | Some p => p :: pick posts rest
           | None => pick posts rest
           end
      else pick posts rest
  end.

(** The body of the [with] block, from the text of the reply on. *)
Definition select_by_reply (posts : list item) (content : string) : list item :=
  let response_text := PyStr.strip content in
  if codes_eqb (PyStr.upper response_text) (PyStr.codes "NONE") then []
  else match parse_indices response_text with
       | Some indices => pick posts indices
       | None => posts
       end.

Definition llm_filter (use_llm_filter : bool)
    (classify : list string -> call_result) (posts : list item)
    : list event * list item :=
  match posts with
  | [] => ([], posts)
  | _ =>
      if negb use_llm_filter then ([], posts)
      else
        let batch := posts_text posts in
        ([EvClassify batch],
         match classify batch with
         | CallFailed => posts
         | CallReply content => select_by_reply posts content
         end)
  end.

(** What [llm_filter] returns to its caller. *)
Definition refine (use_llm_filter : bool)
    (classify : list string -> call_result) (posts : list item) : list item :=
  snd (llm_filter use_llm_filter classify posts).

(** ** Python sets of keys *)

Module PySet.

(** The members, oldest insertion first, without duplicates. *)
Definition t := list string.

Definition empty : t := [].

(** [k in s] *)
Definition mem (k : string) (s : t) : bool := existsb (String.eqb k) s.

(** [s.add(k)] *)
Definition add (k : string) (s : t) : t := if mem k s then s else s ++ [k].

Definition add_all (s : t) (keys : list string) : t :=
  fold_left (fun acc k => add k acc) keys s.

(** [set(l)] *)
Definition of_list (l : list string) : t := add_all empty l.

(** The order in which iteration visits a set.  The language leaves it
    open; in CPython it is the order of the slots of the hash table, which
    the hashes of the keys decide.  All that is known of it is that it
    lists the members, each once. *)
Record order := {
  enum :> t -> list string;
  enum_perm : forall s, Permutation (enum s) s
}.

(** [list(s)] *)
Definition to_list (ord : order) (s : t) : list string := enum ord s.

(** [s.update(other)] *)
Definition update (ord : order) (s other : t) : t :=
  add_all s (to_list ord other).

(** Iteration in insertion order. *)
Definition insertion_order : order :=
  {| enum := fun s => s; enum_perm := fun s => Permutation_refl s |}.

(** Iteration from the newest member to the oldest. *)
Definition newest_first : order :=
  {| enum := fun s => rev s;
     enum_perm := fun s => Permutation_sym (Permutation_rev s) |}.

End PySet.

(** ** The dedup ledger *)

Definition LEDGER_CAP : nat := 5000.

(** [l[-n:]] for a positive [n] *)
Definition last_n {A} (n : nat) (l : list A) : list A :=
  skipn (List.length l - n) l.

(** [state_file] is the content of [seen_posts.json], [None] when the file
    does not exist. *)
Definition load_seen (state_file : option (list string)) : PySet.t :=
  match state_file with
  | Some keys => PySet.of_list keys
  | None => PySet.empty
  end.

(** The list that [save_seen] dumps into the state file. *)
Definition save_seen (ord : PySet.order) (seen : PySet.t) : list string :=
  last_n LEDGER_CAP (PySet.to_list ord seen).

(** ** The driver *)

Record env := {
  state_file : option (list string);
  fetch_subreddit : string -> list raw_data;
  fetch_comments : string -> list raw_data;
  (** the clock, at the n-th call of [process_post] *)
  now : nat -> Q;
  USE_LLM_FILTER : bool;
  classify : list string -> call_result;
  set_order : PySet.order
}.

(** The variables of the loops of [main]. *)
Record loop_state := {
  relevant_posts : list item;
  new_seen : PySet.t;
  clock_reads : nat
}.

Definition full_id (pt : post_type) (post : raw_data) : string :=
  (type_name pt ++ "_" ++ get (raw_id post) "")%string.

(** One turn of an inner loop. *)
Definition visit (e : env) (seen : PySet.t) (pt : post_type)
    (st : loop_state) (post : raw_data) : loop_state :=
  let new_seen' := PySet.add (full_id pt post) (new_seen st) in
  if PySet.mem (full_id pt post) seen
  then {| relevant_posts := relevant_posts st;
          new_seen := new_seen';
          clock_reads := clock_reads st |}
  else
    match process_post (now e (clock_reads st)) post pt with
    | Some result =>
        {| relevant_posts := relevant_posts st ++ [result];
           new_seen := new_seen';
           clock_reads := S (clock_reads st) |}
    | None =>
        {| relevant_posts := relevant_posts st;
           new_seen := new_seen';
           clock_reads := S (clock_reads st) |}
    end.

(** One turn of the outer loop: the posts, then the comments. *)
Definition visit_subreddit (e : env) (seen : PySet.t)
    (st : loop_state) (sub : string) : loop_state :=
  let st1 := fold_left (visit e seen Post) (fetch_subreddit e sub) st in
  fold_left (visit e seen Comment) (fetch_comments e sub) st1.

Definition run_loops (e : env) (seen : PySet.t) : loop_state :=
  fold_left (visit_subreddit e seen) SUBREDDITS
    {| relevant_posts := []; new_seen := PySet.empty; clock_reads := 0 |}.

(** [sort(key=created_utc, reverse=True)]: newest first, items of equal
    time in their former order. *)
Fixpoint insert_newest (x : item) (l : list item) : list item :=
  match l with
  | [] => [x]
  | y :: ys =>
      if Qgtb (created_utc y) (created_utc x) then y :: insert_newest x ys
      else x :: l
  end.

Definition sort_newest_first (l : list item) : list item :=
  fold_right insert_newest [] l.

(** The set handed to [save_seen]. *)
Definition final_seen (e : env) : PySet.t :=
  let seen := load_seen (state_file e) in
  PySet.update (set_order e) seen (new_seen (run_loops e seen)).

(** The candidates handed to the refinement stage. *)
Definition candidates (e : env) : list item :=
  sort_newest_first (relevant_posts (run_loops e (load_seen (state_file e)))).

Definition main (e : env) : list event * list item :=
  let recent := save_seen (set_order e) (final_seen e) in
  let sorted := candidates e in
  let '(llm_events, final) :=
    match sorted with
    | [] => ([], sorted)
    | _ => llm_filter (USE_LLM_FILTER e) (classify e) sorted
    end in
  ([EvSaveSeen recent] ++ llm_events
     ++ match final with [] => [] | _ => [EvWriteOutput final] end,
   final).

(** The ledgers written during a run, in order. *)
Fixpoint saved_ledgers (tr : list event) : list (list string) :=
  match tr with
  | [] => []
  | EvSaveSeen keys :: rest => keys :: saved_ledgers rest
  | _ :: rest => saved_ledgers rest
  end.

(** ** The run as a pipeline *)

(** Everything fetched during a run, in the order of the loops. *)
Definition fetched_from (e : env) (sub : string) : list (post_type * raw_data) :=
  map (pair Post) (fetch_subreddit e sub)
  ++ map (pair Comment) (fetch_comments e sub).

Definition fetched (e : env) : list (post_type * raw_data) :=
  flat_map (fetched_from e) SUBREDDITS.

Definition key_of (r : post_type * raw_data) : string := full_id (fst r) (snd r).

(** Not in the ledger loaded at the start of the run. *)
Definition is_new (seen : PySet.t) (r : post_type * raw_data) : bool :=
  negb (PySet.mem (key_of r) seen).

(** [process_post] over a list of records, the clock being read once for
    each of them. *)
Fixpoint process_all (e : env) (reads : nat) (rs : list (post_type * raw_data))
    : list item :=
  match rs with
  | [] => []
  | r :: rest =>
      match process_post (now e reads) (snd r) (fst r) with
      | Some result => result :: process_all e (S reads) rest
      | None => process_all e (S reads) rest
      end
  end.

Definition visit_pair (e : env) (seen : PySet.t) (st : loop_state)
    (r : post_type * raw_data) : loop_state :=
  visit e seen (fst r) st (snd r).

(** ** Vocabulary of the statements *)

(** [kw] occurs in [s]. *)
Definition Substring (kw s : string) : Prop :=
  exists a b, s = (a ++ kw ++ b)%string.



(** ** Sample data *)

Definition record_at (created : option Q) : raw_data :=
  {| raw_id := Some "abc"; raw_created_utc := created;
     raw_title := Some "Tips for finding a place"; raw_selftext := Some "";
     raw_body := None; raw_subreddit := Some "astoria";
     raw_author := Some "someone"; raw_permalink := Some "/r/astoria/abc";
     raw_score := Some 3%Z |}.


Definition sample_item (name : string) (created : Q) : item :=
  {| id := name; type := Post; subreddit := "astoria";
     title := Some ("ISO apartment " ++ name)%string;
     text := "Looking for an apartment, listings disappear so fast";
     author := "someone"; url := ("https://reddit.com/r/astoria/" ++ name)%string;
     created_utc := created; matched_keywords := ["looking for an apartment"];
     score := 1%Z |}.

Definition item0 : item := sample_item "a" 300%Q.
Definition item1 : item := sample_item "b" 200%Q.
Definition item2 : item := sample_item "c" 100%Q.
Definition three_items : list item := [item0; item1; item2].

(** A classifier that answers [content] whatever the batch. *)
Definition replying (content : string) : list string -> call_result :=
  fun _ => CallReply content.

Definition failing : list string -> call_result := fun _ => CallFailed.

(** A run over two channels: a post of ten minutes ago in the first, a
    comment of two hundred minutes ago in the last; no state file, no
    classifier. *)
Definition fresh_post : raw_data :=
  {| raw_id := Some "p1"; raw_created_utc := Some 1699999400%Q;
     raw_title := Some "Looking for an apartment in Astoria";
     raw_selftext := Some "any tips for finding listings fast?";
     raw_body := None; raw_subreddit := Some "NYCapartments";
     raw_author := Some "hunter"; raw_permalink := Some "/r/NYCapartments/p1";
     raw_score := Some 2%Z |}.

Definition stale_comment : raw_data :=
  {| raw_id := Some "c1"; raw_created_utc := Some 1699988000%Q;
     raw_title := None; raw_selftext := None;
     raw_body := Some "Try the no fee apartment listings";
     raw_subreddit := Some "astoria";
     raw_author := Some "helper"; raw_permalink := Some "/r/astoria/c1";
     raw_score := Some 5%Z |}.

Definition sample_env (file : option (list string)) (use_llm_filter : bool)
    (classifier : list string -> call_result) (ord : PySet.order) : env :=
  {| state_file := file;
     fetch_subreddit := fun sub =>
       if String.eqb sub "NYCapartments" then [fresh_post] else [];
     fetch_comments := fun sub =>
       if String.eqb sub "astoria" then [stale_comment] else [];
     now := fun _ => 1700000000%Q;
     USE_LLM_FILTER := use_llm_filter;
     classify := classifier;
     set_order := ord |}.

(** The keys [post_0] ... [post_5000], oldest first. *)
Definition numbered_keys (n : nat) : list string :=
  map (fun i => ("post_" ++ PyStr.of_nat i)%string) (seq 0 n).

(** ** The entry point and further vocabulary *)

(** The status with which the script exits: [exit(0 if not results else 1)]. *)
Definition exit_code (results : list item) : Z :=
  match results with
  | [] => 0%Z
  | _ => 1%Z
  end.

(** The text that [process_post] examines: title and body of a post, body
    of a comment. *)
Definition record_text (pt : post_type) (data : raw_data) : string :=
  match pt with
  | Post => (get (raw_title data) "" ++ " " ++ get (raw_selftext data) "")%string
  | Comment => get (raw_body data) ""
  end.

(** The ledger key of an item, from its [type] and [id]. *)
Definition item_key (it : item) : string :=
  (type_name (type it) ++ "_" ++ id it)%string.

(** The keys of the state file, none when there is no file. *)
Definition file_keys (e : env) : list string :=
  match state_file e with
  | Some keys => keys
  | None => []
  end.

Definition newer_or_equal (a b : item) : Prop :=
  (created_utc b <= created_utc a)%Q.

Definition same_time (q : Q) (it : item) : bool :=
  Qeq_bool (created_utc it) q.

(** The batches sent to the classifier during a run, in order. *)
Fixpoint classify_calls (tr : list event) : list (list string) :=
  match tr with
  | [] => []
  | EvClassify batch :: rest => batch :: classify_calls rest
  | _ :: rest => classify_calls rest
  end.

(** The outputs written during a run, in order. *)
Fixpoint written_outputs (tr : list event) : list (list item) :=
  match tr with
  | [] => []
  | EvWriteOutput items :: rest => items :: written_outputs rest
  | _ :: rest => written_outputs rest
  end.

(** * Properties *)

(** ** Substrings *)

Lemma prefix_true_iff (kw s : string) :
  prefix kw s = true <-> exists b, s = (kw ++ b)%string.
Proof.
  revert s; induction kw as [|c kw IH]; intros s; simpl.
  - split; [intros _; now exists s | now destruct s].
  - destruct s as [|d s].
    + split; [discriminate | intros [b Hb]; discriminate].
    + simpl. destruct (ascii_dec c d) as [->|Hcd].
      * rewrite IH. split; intros [b Hb]; exists b; congruence.
      * split; [discriminate | intros [b Hb]; congruence].
Qed.

Lemma contains_true_iff (kw s : string) :
  PyStr.contains kw s = true <-> Substring kw s.
Proof.
  unfold Substring.
  induction s as [|d s IH]; cbn [PyStr.contains];
    rewrite orb_true_iff, prefix_true_iff.
  - split.
    + intros [[b Hb]|H]; [|discriminate]. now exists EmptyString, b.
    + intros (a & b & H). left. destruct a; [now exists b | discriminate].
  - rewrite IH. split.
    + intros [[b Hb]|(a & b & H)].
      * now exists EmptyString, b.
      * exists (String d a), b. simpl. now rewrite H.
    + intros (a & b & H). destruct a as [|c a]; simpl in H.
      * left. now exists b.
      * right. exists a, b. congruence.
Qed.

Lemma contains_false_iff (kw s : string) :
  PyStr.contains kw s = false <-> ~ Substring kw s.
Proof.
  rewrite <- contains_true_iff. destruct (PyStr.contains kw s); split; congruence.
Qed.

(** ** The keyword pre-filter *)

Section KeywordLoops.

Variable text_lower : string.

Lemma skip_loop_true_iff (kws : list string) :
  skip_loop kws text_lower = true <->
  exists kw, In kw kws /\ Substring kw text_lower.
Proof.
  induction kws as [|k kws IH]; simpl.
  - split; [discriminate | intros (kw & [] & _)].
  - destruct (PyStr.contains k text_lower) eqn:Hk.
    + split; [intros _ | reflexivity].
      exists k. split; [now left | now apply contains_true_iff].
    + rewrite IH. apply contains_false_iff in Hk.
      split; intros (kw & Hin & Hsub); exists kw.
      * split; [now right | assumption].
      * destruct Hin as [<-|Hin]; [contradiction | now split].
Qed.

Lemma match_loop_filter (kws matched : list string) :
  match_loop kws text_lower matched =
  matched ++ filter (fun kw => PyStr.contains kw text_lower) kws.
Proof.
  revert matched; induction kws as [|k kws IH]; intros matched; simpl.
  - now rewrite app_nil_r.
  - destruct (PyStr.contains k text_lower); rewrite IH; [|reflexivity].
    now rewrite <- app_assoc.
Qed.

End KeywordLoops.

(** C5.  A text whose lower-cased form contains a negative keyword is
    rejected with an empty list of matches, whatever positive keywords it
    contains as well. *)
Theorem is_relevant_negative_keyword (text kw : string) :
  In kw SKIP_KEYWORDS ->
  Substring kw (PyStr.lower text) ->
  is_relevant text = (false, []).
Proof.
  intros Hin Hsub. unfold is_relevant.
  replace (skip_loop SKIP_KEYWORDS (PyStr.lower text)) with true; [reflexivity|].
  symmetry. apply skip_loop_true_iff. now exists kw.
Qed.

Lemma is_relevant_negative_keyword_witness :
  is_relevant "Looking for a ROOMMATE who loves streeteasy" = (false, []).
Proof.
  apply (is_relevant_negative_keyword _ "roommate").
  - simpl. auto.
  - exists "looking for a ", " who loves streeteasy". reflexivity.
Defined.

(** C6.  A text whose lower-cased form contains no negative keyword passes
    the gate, also when no positive keyword occurs in it, and the matches
    are the positive keywords occurring in the lower-cased text, in the
    order of [KEYWORDS]. *)
Theorem is_relevant_passes_gate (text : string) :
  (forall kw, In kw SKIP_KEYWORDS -> ~ Substring kw (PyStr.lower text)) ->
  let matched := snd (is_relevant text) in
  fst (is_relevant text) = true /\
  matched = filter (fun kw => PyStr.contains kw (PyStr.lower text)) KEYWORDS /\
  (forall kw, In kw matched <->
              In kw KEYWORDS /\ Substring kw (PyStr.lower text)).
Proof.
  intros Hfree. unfold is_relevant.
  destruct (skip_loop SKIP_KEYWORDS (PyStr.lower text)) eqn:Hskip.
  - apply skip_loop_true_iff in Hskip. destruct Hskip as (kw & Hin & Hsub).
    now destruct (Hfree kw Hin).
  - cbn [fst snd]. rewrite match_loop_filter. cbn [app].
    split; [reflexivity | split; [reflexivity|]].
    intros kw. now rewrite filter_In, contains_true_iff.
Qed.

Lemma is_relevant_passes_gate_witness :
  fst (is_relevant "Checking StreetEasy for new listings") = true /\
  snd (is_relevant "Checking StreetEasy for new listings") =
    ["streeteasy"; "new listing"; "new listings"; "checking streeteasy"].
Proof.
  pose proof (is_relevant_passes_gate "Checking StreetEasy for new listings") as H.
  cbv zeta in H. destruct H as (Hgate & Hmatched & _).
  - intros kw Hin. apply contains_false_iff.
    simpl in Hin.
    repeat (destruct Hin as [<-|Hin]; [reflexivity|]). contradiction.
  - split; [exact Hgate | rewrite Hmatched; reflexivity].
Defined.

(** The gate passes with no match at all. *)
Example is_relevant_no_match :
  is_relevant "Bedbugs again" = (true, []).
Proof. reflexivity. Qed.

(** ** The recency test *)

Lemma Qgtb_true_iff (x y : Q) : Qgtb x y = true <-> (y < x)%Q.
Proof.
  unfold Qgtb. rewrite negb_true_iff, <- not_true_iff_false, Qle_bool_iff.
  split; [apply Qnot_le_lt | apply Qlt_not_le].
Qed.

Lemma Qgtb_false_iff (x y : Q) : Qgtb x y = false <-> (x <= y)%Q.
Proof.
  unfold Qgtb. now rewrite negb_false_iff, Qle_bool_iff.
Qed.

(** An age above the threshold, counted in seconds. *)
Lemma age_above_threshold_seconds (now_utc created : Q) :
  (MAX_AGE_MINUTES < age_minutes now_utc created <-> created + 7200 < now_utc)%Q.
Proof.
  unfold age_minutes, MAX_AGE_MINUTES.
  destruct now_utc as [a b], created as [c d].
  unfold Qlt, Qdiv, Qmult, Qminus, Qplus, Qopp, Qinv; simpl.
  rewrite !Pos2Z.inj_mul. nia.
Qed.




(** The same test in seconds: rejected exactly when more than 7200 seconds
    have passed since [created_utc]. *)
Lemma too_old_seconds (now_utc : Q) (data : raw_data) :
  too_old now_utc data = true <->
  (get (raw_created_utc data) 0 + 7200 < now_utc)%Q.
Proof.
  rewrite <- age_above_threshold_seconds. apply Qgtb_true_iff.
Qed.

(** Exactly 120 minutes old: kept.  One second more: dropped. *)
Example recency_at_boundary :
  too_old 1700007200%Q (record_at (Some 1700000000%Q)) = false /\
  too_old 1700007201%Q (record_at (Some 1700000000%Q)) = true /\
  process_post 1700007200%Q (record_at (Some 1700000000%Q)) Post <> None.
Proof. repeat split. discriminate. Qed.

(** ** The refinement stage *)

Section Refinement.

Variable classifier : list string -> call_result.

Lemma refine_disabled (posts : list item) :
  refine false classifier posts = posts.
Proof. unfold refine, llm_filter. now destruct posts. Qed.

Lemma refine_empty (use_llm_filter : bool) :
  refine use_llm_filter classifier [] = [].
Proof. reflexivity. Qed.

(** A failed call gives the candidates back. *)
Lemma refine_call_failed (use_llm_filter : bool) (posts : list item) :
  classifier (posts_text posts) = CallFailed ->
  refine use_llm_filter classifier posts = posts.
Proof.
  intros H. unfold refine, llm_filter.
  destruct posts as [|p posts]; [reflexivity|].
  destruct use_llm_filter; cbn [negb snd]; [|reflexivity].
  now rewrite H.
Qed.

(** The three ways out of [llm_filter]. *)
Lemma refine_cases (use_llm_filter : bool) (posts : list item) :
  refine use_llm_filter classifier posts = posts \/
  exists content,
    classifier (posts_text posts) = CallReply content /\
    refine use_llm_filter classifier posts = select_by_reply posts content.
Proof.
  unfold refine, llm_filter.
  destruct posts as [|p posts]; [now left|].
  destruct use_llm_filter; cbn [negb snd]; [|now left].
  destruct (classifier (posts_text (p :: posts))) as [|content]; [now left|].
  right. now exists content.
Qed.

End Refinement.




Lemma pick_In {A} (posts : list A) (indices : list N) (p : A) :
  In p (pick posts indices) -> In p posts.
Proof.
  induction indices as [|i rest IH]; simpl; [intros []|].
  destruct (i <? N.of_nat (List.length posts))%N; [|exact IH].
  destruct (nth_error posts (N.to_nat i)) eqn:Hnth; [|exact IH].
  intros [<-|H]; [|now apply IH].
  eapply nth_error_In; eassumption.
Qed.





Lemma select_by_reply_In (posts : list item) (content : string) (p : item) :
  In p (select_by_reply posts content) -> In p posts.
Proof.
  unfold select_by_reply.
  destruct (codes_eqb _ _); [intros []|].
  destruct (parse_indices _); [apply pick_In | trivial].
Qed.

(** C9.  On a batch of three candidates the reply [0,2] selects the first
    and the third, in that order; the reply [NONE] selects nothing; and the
    reply [5], an index past the end of the batch, selects nothing either,
    the index being skipped. *)
Theorem refine_selection_examples (p0 p1 p2 : item) :
  refine true (replying "0,2") [p0; p1; p2] = [p0; p2] /\
  refine true (replying "NONE") [p0; p1; p2] = [] /\
  refine true (replying "5") [p0; p1; p2] = [].
Proof. repeat split. Qed.

(** The sentinel is read without regard to case or surrounding white
    space, and the fields may be padded with blanks. *)
Example refine_reply_variants :
  refine true (replying " none ") three_items = [] /\
  refine true (replying "0, 2") three_items = [item0; item2] /\
  refine true (replying "1,x,7") three_items = [item1].
Proof. repeat split. Qed.

(** C1.  A reply that is neither the sentinel nor a list of indices does
    not give the candidates back: every field fails the [isdigit] test, the
    list of indices is empty, and so is the result. *)
Theorem refine_unparseable_reply_drops_all :
  three_items <> [] /\
  parse_indices (PyStr.strip "I cannot decide") = Some [] /\
  refine true (replying "I cannot decide") three_items = [].
Proof. repeat split. discriminate. Qed.

(** The fallback of the parsing block is taken only when [int] raises, as
    on a superscript digit, which [isdigit] accepts. *)
Example refine_superscript_reply :
  let reply := String (ascii_of_N 178) EmptyString in
  parse_indices reply = None /\
  refine true (replying reply) three_items = three_items.
Proof. repeat split. Qed.

Example refine_failed_call :
  refine true failing three_items = three_items.
Proof. now apply refine_call_failed. Qed.


(** An index given twice selects its item twice. *)
Example refine_repeats_items :
  refine true (replying "0,0") three_items = [item0; item0].
Proof. reflexivity. Qed.



(** ** Sets of keys *)

Lemma mem_true_iff (k : string) (s : PySet.t) :
  PySet.mem k s = true <-> In k s.
Proof.
  unfold PySet.mem. rewrite existsb_exists. split.
  - intros (x & Hin & Heq). apply String.eqb_eq in Heq. now subst.
  - intros Hin. exists k. split; [assumption | apply String.eqb_refl].
Qed.

Lemma add_In (k k' : string) (s : PySet.t) :
  In k (PySet.add k' s) <-> In k s \/ k = k'.
Proof.
  unfold PySet.add. destruct (PySet.mem k' s) eqn:Hmem.
  - apply mem_true_iff in Hmem. split; [now left|].
    intros [H| ->]; assumption.
  - rewrite in_app_iff. simpl. intuition congruence.
Qed.

Lemma add_all_In (k : string) (keys : list string) :
  forall s, In k (PySet.add_all s keys) <-> In k s \/ In k keys.
Proof.
  unfold PySet.add_all.
  induction keys as [|k' keys IH]; intros s; simpl; [tauto|].
  rewrite IH, add_In. intuition congruence.
Qed.

(** Adding keys that are new and distinct appends them. *)
Lemma add_all_distinct (keys : list string) :
  forall s, NoDup (s ++ keys) -> PySet.add_all s keys = s ++ keys.
Proof.
  unfold PySet.add_all.
  induction keys as [|k keys IH]; intros s Hnd; simpl.
  - now rewrite app_nil_r.
  - assert (Hfresh : PySet.mem k s = false).
    { apply not_true_iff_false. rewrite mem_true_iff. intros Hin.
      apply NoDup_remove_2 in Hnd. apply Hnd. apply in_or_app. now left. }
    unfold PySet.add at 2. rewrite Hfresh.
    change (s ++ k :: keys) with (s ++ [k] ++ keys) in *.
    rewrite app_assoc in *. now apply IH.
Qed.

Lemma of_list_distinct (keys : list string) :
  NoDup keys -> PySet.of_list keys = keys.
Proof. intros H. now apply (add_all_distinct keys []). Qed.

Lemma to_list_In (ord : PySet.order) (s : PySet.t) (k : string) :
  In k (PySet.to_list ord s) <-> In k s.
Proof.
  unfold PySet.to_list. split; apply Permutation_in.
  - apply PySet.enum_perm.
  - apply Permutation_sym, PySet.enum_perm.
Qed.

Lemma to_list_length (ord : PySet.order) (s : PySet.t) :
  List.length (PySet.to_list ord s) = List.length s.
Proof. apply Permutation_length, PySet.enum_perm. Qed.

Lemma update_In (ord : PySet.order) (s other : PySet.t) (k : string) :
  In k (PySet.update ord s other) <-> In k s \/ In k other.
Proof. unfold PySet.update. now rewrite add_all_In, to_list_In. Qed.

(** ** The ledger *)

Lemma last_n_length {A} (n : nat) (l : list A) :
  List.length (last_n n l) = Nat.min n (List.length l).
Proof. unfold last_n. rewrite length_skipn. lia. Qed.

Lemma last_n_short {A} (n : nat) (l : list A) :
  List.length l <= n -> last_n n l = l.
Proof.
  intros H. unfold last_n. now replace (List.length l - n) with 0 by lia.
Qed.

Lemma save_seen_length (ord : PySet.order) (seen : PySet.t) :
  List.length (save_seen ord seen) = Nat.min LEDGER_CAP (List.length seen).
Proof. unfold save_seen. now rewrite last_n_length, to_list_length. Qed.

(** Below the cap the whole set is written. *)
Lemma save_seen_all (ord : PySet.order) (seen : PySet.t) (k : string) :
  List.length seen <= LEDGER_CAP ->
  (In k (save_seen ord seen) <-> In k seen).
Proof.
  intros H. unfold save_seen.
  rewrite last_n_short by now rewrite to_list_length.
  apply to_list_In.
Qed.

(** If iteration followed the order of insertion, the keys written would
    be the last ones inserted. *)
Lemma save_seen_insertion_order (seen : PySet.t) :
  save_seen PySet.insertion_order seen = last_n LEDGER_CAP seen.
Proof. reflexivity. Qed.

(** C3.  A set of 5001 keys, [post_0] the oldest and [post_5000] the
    newest, iterated from the newest to the oldest: [save_seen] writes
    5000 keys, keeps the oldest key and drops the newest one. *)
Theorem save_seen_drops_newest_key :
  let seen : PySet.t := numbered_keys 5001 in
  let written := save_seen PySet.newest_first seen in
  hd_error seen = Some "post_0" /\
  last seen "" = "post_5000" /\
  List.length written = 5000 /\
  PySet.mem "post_0" written = true /\
  PySet.mem "post_5000" written = false.
Proof. vm_compute. repeat split. Qed.

(** ** The loops of [main] *)

Section Loops.

Variable e : env.
Variable seen : PySet.t.

Lemma fold_visit_pairs (pt : post_type) (posts : list raw_data) :
  forall st,
    fold_left (visit e seen pt) posts st =
    fold_left (visit_pair e seen) (map (pair pt) posts) st.
Proof. induction posts as [|p posts IH]; intros st; simpl; [|rewrite IH]; reflexivity. Qed.

Lemma visit_subreddit_pairs (st : loop_state) (sub : string) :
  visit_subreddit e seen st sub =
  fold_left (visit_pair e seen) (fetched_from e sub) st.
Proof.
  unfold visit_subreddit, fetched_from.
  now rewrite fold_left_app, !fold_visit_pairs.
Qed.

Lemma fold_subreddits_pairs (subs : list string) :
  forall st,
    fold_left (visit_subreddit e seen) subs st =
    fold_left (visit_pair e seen) (flat_map (fetched_from e) subs) st.
Proof.
  induction subs as [|sub subs IH]; intros st; simpl; [reflexivity|].
  now rewrite fold_left_app, IH, visit_subreddit_pairs.
Qed.

(** What the loops leave in their variables. *)
Lemma fold_visit_pair_state (rs : list (post_type * raw_data)) :
  forall st,
    let st' := fold_left (visit_pair e seen) rs st in
    new_seen st' = PySet.add_all (new_seen st) (map key_of rs) /\
    clock_reads st' =
      clock_reads st + List.length (filter (is_new seen) rs) /\
    relevant_posts st' =
      relevant_posts st
      ++ process_all e (clock_reads st) (filter (is_new seen) rs).
Proof.
  induction rs as [|r rs IH]; intros st; cbn zeta.
  - simpl. rewrite app_nil_r. repeat split. lia.
  - cbn [fold_left]. destruct (IH (visit_pair e seen st r)) as (Hn & Hc & Hr).
    rewrite Hn, Hc, Hr. clear IH Hn Hc Hr.
    unfold visit_pair, visit, is_new. cbn [map filter].
    fold (key_of r).
    destruct (PySet.mem (key_of r) seen); cbn [negb].
    + cbn [new_seen clock_reads relevant_posts]. repeat split.
    + cbn [process_all List.length].
      destruct (process_post (now e (clock_reads st)) (snd r) (fst r));
        cbn [new_seen clock_reads relevant_posts];
        repeat split; try lia.
      now rewrite <- app_assoc.
Qed.

Lemma run_loops_state :
  new_seen (run_loops e seen) = PySet.of_list (map key_of (fetched e)) /\
  clock_reads (run_loops e seen) =
    List.length (filter (is_new seen) (fetched e)) /\
  relevant_posts (run_loops e seen) =
    process_all e 0 (filter (is_new seen) (fetched e)).
Proof.
  unfold run_loops. rewrite fold_subreddits_pairs.
  apply (fold_visit_pair_state (flat_map (fetched_from e) SUBREDDITS)).
Qed.

End Loops.

(** The keys handed to [save_seen]: those of the state file and those of
    everything fetched. *)
Lemma final_seen_In (e : env) (k : string) :
  In k (final_seen e) <->
  In k (load_seen (state_file e)) \/ In k (map key_of (fetched e)).
Proof.
  unfold final_seen.
  destruct (run_loops_state e (load_seen (state_file e))) as (Hn & _).
  rewrite update_In, Hn. unfold PySet.of_list. rewrite add_all_In.
  simpl. tauto.
Qed.

Lemma llm_filter_events (use_llm_filter : bool)
    (classifier : list string -> call_result) (posts : list item) :
  saved_ledgers (fst (llm_filter use_llm_filter classifier posts)) = [].
Proof.
  unfold llm_filter. destruct posts; [reflexivity|].
  now destruct use_llm_filter.
Qed.

(** The trace of a run starts with the write of the ledger; nothing else
    in it writes the ledger. *)
Lemma main_trace (e : env) :
  exists rest,
    fst (main e) = EvSaveSeen (save_seen (set_order e) (final_seen e)) :: rest /\
    saved_ledgers rest = [].
Proof.
  unfold main.
  destruct (candidates e) as [|c cs].
  - exists []. now split.
  - pose proof (llm_filter_events (USE_LLM_FILTER e) (classify e) (c :: cs)) as Hev.
    destruct (llm_filter (USE_LLM_FILTER e) (classify e) (c :: cs))
      as [llm_events final].
    cbn [fst] in *. eexists. split; [reflexivity|].
    revert Hev. clear. cbn [app].
    induction llm_events as [|ev evs IH]; simpl.
    + now destruct final.
    + destruct ev; [discriminate | exact IH | exact IH].
Qed.

Lemma fetched_In (e : env) (pt : post_type) (post : raw_data) (sub : string) :
  In sub SUBREDDITS ->
  In post (match pt with
           | Post => fetch_subreddit e sub
           | Comment => fetch_comments e sub
           end) ->
  In (pt, post) (fetched e).
Proof.
  intros Hsub Hpost. unfold fetched. apply in_flat_map.
  exists sub. split; [assumption|].
  unfold fetched_from. apply in_or_app.
  destruct pt; [left | right]; now apply in_map.
Qed.

Lemma final_seen_eq (e : env) :
  final_seen e =
  PySet.update (set_order e) (load_seen (state_file e))
    (PySet.of_list (map key_of (fetched e))).
Proof.
  unfold final_seen.
  now destruct (run_loops_state e (load_seen (state_file e))) as (-> & _).
Qed.

Lemma fetched_ext (e1 e2 : env) :
  (forall sub, In sub SUBREDDITS -> fetch_subreddit e1 sub = fetch_subreddit e2 sub) ->
  (forall sub, In sub SUBREDDITS -> fetch_comments e1 sub = fetch_comments e2 sub) ->
  fetched e1 = fetched e2.
Proof.
  unfold fetched. generalize SUBREDDITS as subs.
  induction subs as [|sub subs IH]; intros Hp Hc; simpl; [reflexivity|].
  rewrite IH.
  - unfold fetched_from. now rewrite (Hp sub), (Hc sub) by now left.
  - intros s Hs. apply Hp. now right.
  - intros s Hs. apply Hc. now right.
Qed.

(** C8.  Whatever the state file holds and whatever is fetched, a run
    writes the ledger once, and with at most 5000 keys. *)
Theorem persisted_ledger_bounded (e : env) :
  exists keys,
    saved_ledgers (fst (main e)) = [keys] /\
    List.length keys <= 5000.
Proof.
  destruct (main_trace e) as (rest & Htrace & Hrest).
  exists (save_seen (set_order e) (final_seen e)). split.
  - rewrite Htrace. simpl. now rewrite Hrest.
  - rewrite save_seen_length. unfold LEDGER_CAP. lia.
Qed.

(** C7.  The key of every record fetched during a run is in the set that
    [main] hands to [save_seen], whatever becomes of the record: already in
    the ledger, too old, rejected by the keyword filter or dropped by the
    classifier.  That set is what the run writes, whole when it holds at
    most 5000 keys.  And the ledger is consulted first: [process_post] runs
    on the records whose key is not in the loaded ledger, and on no other. *)
Theorem fetched_keys_marked_seen (e : env) (sub : string)
    (pt : post_type) (post : raw_data) :
  In sub SUBREDDITS ->
  In post (match pt with
           | Post => fetch_subreddit e sub
           | Comment => fetch_comments e sub
           end) ->
  let seen := load_seen (state_file e) in
  let written := save_seen (set_order e) (final_seen e) in
  PySet.mem (full_id pt post) (final_seen e) = true /\
  (exists rest, fst (main e) = EvSaveSeen written :: rest) /\
  (List.length (final_seen e) <= 5000 -> In (full_id pt post) written) /\
  relevant_posts (run_loops e seen) =
    process_all e 0 (filter (is_new seen) (fetched e)) /\
  clock_reads (run_loops e seen) =
    List.length (filter (is_new seen) (fetched e)).
Proof.
  intros Hsub Hpost seen written.
  assert (Hin : In (full_id pt post) (final_seen e)).
  { apply final_seen_In. right.
    change (full_id pt post) with (key_of (pt, post)).
    apply in_map. eapply fetched_In; eassumption. }
  split; [now apply mem_true_iff|].
  split.
  { destruct (main_trace e) as (rest & Htrace & _). now exists rest. }
  split.
  { intros Hlen. now apply save_seen_all. }
  destruct (run_loops_state e seen) as (_ & Hc & Hr). now split.
Qed.

Lemma fetched_keys_marked_seen_witness :
  PySet.mem "comment_c1"
    (final_seen (sample_env (Some ["post_p1"]) true (replying "NONE")
                            PySet.newest_first)) = true.
Proof.
  apply (fetched_keys_marked_seen
           (sample_env (Some ["post_p1"]) true (replying "NONE")
                       PySet.newest_first)
           "astoria" Comment stale_comment).
  - simpl. auto.
  - simpl. auto.
Defined.

(** C10.  Two runs that start from the same state file and fetch the same
    records write the same ledger, whatever their classifiers (and their
    clocks) are and do; and the write of the ledger is the first thing in
    the trace of each, ahead of any call of the classifier. *)
Theorem ledger_independent_of_classifier (e1 e2 : env) :
  state_file e1 = state_file e2 ->
  set_order e1 = set_order e2 ->
  (forall sub, In sub SUBREDDITS -> fetch_subreddit e1 sub = fetch_subreddit e2 sub) ->
  (forall sub, In sub SUBREDDITS -> fetch_comments e1 sub = fetch_comments e2 sub) ->
  exists keys rest1 rest2,
    fst (main e1) = EvSaveSeen keys :: rest1 /\
    fst (main e2) = EvSaveSeen keys :: rest2 /\
    saved_ledgers rest1 = [] /\
    saved_ledgers rest2 = [].
Proof.
  intros Hfile Hord Hposts Hcomments.
  destruct (main_trace e1) as (rest1 & Ht1 & Hr1).
  destruct (main_trace e2) as (rest2 & Ht2 & Hr2).
  exists (save_seen (set_order e1) (final_seen e1)), rest1, rest2.
  repeat split; try assumption.
  rewrite Ht2. do 2 f_equal.
  rewrite !final_seen_eq, Hfile, Hord.
  now rewrite (fetched_ext e1 e2).
Qed.

Lemma ledger_independent_of_classifier_witness :
  exists keys rest1 rest2,
    fst (main (sample_env None false failing PySet.insertion_order))
      = EvSaveSeen keys :: rest1 /\
    fst (main (sample_env None true (replying "NONE") PySet.insertion_order))
      = EvSaveSeen keys :: rest2 /\
    saved_ledgers rest1 = [] /\
    saved_ledgers rest2 = [].
Proof.
  apply ledger_independent_of_classifier.
  - reflexivity.
  - reflexivity.
  - reflexivity.
  - reflexivity.
Defined.

(** The run over two channels: the fresh post is the output, both keys are
    in the ledger. *)
Example main_two_channels :
  exists result,
    main (sample_env None false failing PySet.insertion_order) =
      ([EvSaveSeen ["post_p1"; "comment_c1"]; EvWriteOutput [result]], [result])
    /\ id result = "p1".
Proof. eexists. split; reflexivity. Qed.

(** The same run with a classifier that selects nothing: the ledger is
    written, then the classifier is called, and no output is written. *)
Example main_classifier_selects_nothing :
  exists batch,
    main (sample_env None true (replying "NONE") PySet.insertion_order) =
      ([EvSaveSeen ["post_p1"; "comment_c1"]; EvClassify batch], []).
Proof. eexists. reflexivity. Qed.

(** A record whose key is in the loaded ledger is not processed again. *)
Example main_already_seen :
  main (sample_env (Some ["post_p1"]) false failing PySet.insertion_order) =
    ([EvSaveSeen ["post_p1"; "comment_c1"]], []).
Proof. reflexivity. Qed.

(** * Further properties of the code *)

(** ** [process_post] *)


Lemma take_length (n : nat) (s : string) : String.length (PyStr.take n s) <= n.
Proof.
  revert s; induction n as [|n IH]; intros [|c s]; simpl; try lia.
  specialize (IH s). lia.
Qed.

Lemma take_prefix (n : nat) (s : string) :
  exists rest, s = (PyStr.take n s ++ rest)%string.
Proof.
  revert s; induction n as [|n IH]; intros s.
  - exists s. now destruct s.
  - destruct s as [|c s]; [now exists EmptyString|].
    destruct (IH s) as [rest Hrest]. exists rest. simpl. now rewrite <- Hrest.
Qed.

(** What [process_post] returns, when it returns an item. *)
Lemma process_post_Some (now_utc : Q) (data : raw_data) (pt : post_type)
    (it : item) :
  process_post now_utc data pt = Some it ->
  too_old now_utc data = false /\
  fst (is_relevant (record_text pt data)) = true /\
  it = {| id := get (raw_id data) "";
          type := pt;
          subreddit := get (raw_subreddit data) "";
          title := match pt with
                   | Post => Some (get (raw_title data) "")
                   | Comment => None
                   end;
          text := PyStr.take 500 (record_text pt data);
          author := get (raw_author data) "";
          url := ("https://reddit.com" ++ get (raw_permalink data) "")%string;
          created_utc := get (raw_created_utc data) 0%Q;
          matched_keywords := snd (is_relevant (record_text pt data));
          score := get (raw_score data) 0%Z |}.
Proof.
  unfold process_post. fold (record_text pt data).
  destruct (too_old now_utc data); [discriminate|].
  destruct (is_relevant (record_text pt data)) as [relevant keywords].
  destruct relevant; cbn [negb fst snd]; [|discriminate].
  intros H. injection H as <-. repeat split.
Qed.


(** X2.  An item built by [process_post] has the ledger key of its record,
    a text of at most 500 characters that is the beginning of the record's
    text, a title only if it is a post, and as matches the positive
    keywords found in the whole lower-cased text, in configured order. *)
Theorem process_post_item_fields (now_utc : Q) (data : raw_data)
    (pt : post_type) (it : item) :
  process_post now_utc data pt = Some it ->
  item_key it = full_id pt data /\
  String.length (text it) <= 500 /\
  (exists rest, record_text pt data = (text it ++ rest)%string) /\
  (title it = None <-> pt = Comment) /\
  matched_keywords it =
    filter (fun kw => PyStr.contains kw (PyStr.lower (record_text pt data)))
           KEYWORDS.
Proof.
  intros H. apply process_post_Some in H. destruct H as (_ & Hgate & ->).
  cbn [item_key type id text title matched_keywords].
  split; [reflexivity|]. split; [apply take_length|].
  split; [apply take_prefix|]. split.
  - destruct pt; split; congruence.
  - revert Hgate. unfold is_relevant.
    destruct (skip_loop SKIP_KEYWORDS _); cbn [fst snd]; [discriminate|].
    intros _. now rewrite match_loop_filter.
Qed.

Lemma process_post_item_fields_witness :
  exists it,
    process_post 1700000000%Q fresh_post Post = Some it /\
    item_key it = "post_p1" /\
    String.length (text it) <= 500.
Proof.
  eexists. split; [reflexivity|].
  destruct (process_post_item_fields 1700000000%Q fresh_post Post _ eq_refl)
    as (Hkey & Hlen & _).
  split; [exact Hkey | exact Hlen].
Defined.

(** ** The sort of the candidates *)

Lemma insert_newest_perm (x : item) (l : list item) :
  Permutation (insert_newest x l) (x :: l).
Proof.
  induction l as [|y ys IH]; simpl; [reflexivity|].
  destruct (Qgtb (created_utc y) (created_utc x)); [|reflexivity].
  rewrite IH. apply perm_swap.
Qed.

Lemma sort_newest_first_perm (l : list item) :
  Permutation (sort_newest_first l) l.
Proof.
  induction l as [|x l IH]; simpl; [reflexivity|].
  rewrite insert_newest_perm. now constructor.
Qed.

Lemma insert_newest_sorted (x : item) (l : list item) :
  StronglySorted newer_or_equal l ->
  StronglySorted newer_or_equal (insert_newest x l).
Proof.
  induction 1 as [|y ys Hsorted IH Hall]; simpl.
  - repeat constructor.
  - destruct (Qgtb (created_utc y) (created_utc x)) eqn:Hcmp.
    + apply Qgtb_true_iff in Hcmp. constructor; [exact IH|].
      eapply Permutation_Forall.
      * apply Permutation_sym, insert_newest_perm.
      * constructor; [now apply Qlt_le_weak | exact Hall].
    + apply Qgtb_false_iff in Hcmp.
      constructor; [now constructor|].
      constructor; [exact Hcmp|].
      eapply Forall_impl; [|exact Hall].
      unfold newer_or_equal. intros z Hz. now apply Qle_trans with (created_utc y).
Qed.

Lemma sort_newest_first_ordered (l : list item) :
  StronglySorted newer_or_equal (sort_newest_first l).
Proof.
  induction l as [|x l IH]; simpl; [constructor|].
  now apply insert_newest_sorted.
Qed.

(** X3.  The sort puts the candidates newest first and neither drops nor
    adds any. *)
Theorem sort_newest_first_sorted (l : list item) :
  StronglySorted newer_or_equal (sort_newest_first l) /\
  Permutation (sort_newest_first l) l.
Proof.
  split; [apply sort_newest_first_ordered | apply sort_newest_first_perm].
Qed.

Lemma insert_newest_same_time (q : Q) (x : item) (l : list item) :
  filter (same_time q) (insert_newest x l) = filter (same_time q) (x :: l).
Proof.
  induction l as [|y ys IH]; [reflexivity|].
  cbn [insert_newest].
  destruct (Qgtb (created_utc y) (created_utc x)) eqn:Hcmp; [|reflexivity].
  cbn [filter] in *. rewrite IH.
  destruct (same_time q x) eqn:Hx; [|reflexivity].
  destruct (same_time q y) eqn:Hy; [|reflexivity].
  exfalso. unfold same_time in Hx, Hy.
  apply Qeq_bool_iff in Hx, Hy. apply Qgtb_true_iff in Hcmp.
  rewrite Hx, Hy in Hcmp. now apply Qlt_irrefl in Hcmp.
Qed.

(** X4.  The sort is stable: the candidates of any one creation time come
    out in the order in which they went in. *)
Theorem sort_newest_first_stable (q : Q) (l : list item) :
  filter (same_time q) (sort_newest_first l) = filter (same_time q) l.
Proof.
  induction l as [|x l IH]; [reflexivity|].
  cbn [sort_newest_first fold_right].
  fold (sort_newest_first l).
  rewrite insert_newest_same_time. cbn [filter]. now rewrite IH.
Qed.

Example sort_newest_first_example :
  sort_newest_first [item2; item0; sample_item "d" 300%Q; item1] =
    [item0; sample_item "d" 300%Q; item1; item2].
Proof. reflexivity. Qed.

(** ** Where the results of a run come from *)

Lemma refine_In (use_llm_filter : bool)
    (classifier : list string -> call_result) (posts : list item) (p : item) :
  In p (refine use_llm_filter classifier posts) -> In p posts.
Proof.
  destruct (refine_cases classifier use_llm_filter posts)
    as [-> | (content & _ & ->)]; [trivial | apply select_by_reply_In].
Qed.

Lemma main_result (e : env) :
  snd (main e) = refine (USE_LLM_FILTER e) (classify e) (candidates e).
Proof.
  unfold main, refine. destruct (candidates e) as [|c cs]; [reflexivity|].
  now destruct (llm_filter (USE_LLM_FILTER e) (classify e) (c :: cs)).
Qed.

Lemma process_all_In (e : env) (rs : list (post_type * raw_data)) (it : item) :
  forall reads,
    In it (process_all e reads rs) ->
    exists r n, In r rs /\ process_post (now e n) (snd r) (fst r) = Some it.
Proof.
  induction rs as [|r rs IH]; intros reads; simpl; [intros []|].
  destruct (process_post (now e reads) (snd r) (fst r)) as [result|] eqn:Hp.
  - intros [<-|Hin].
    + exists r, reads. split; [now left | assumption].
    + destruct (IH _ Hin) as (r' & n & Hr' & Hn). exists r', n. split; [now right | assumption].
  - intros Hin. destruct (IH _ Hin) as (r' & n & Hr' & Hn).
    exists r', n. split; [now right | assumption].
Qed.

Lemma candidates_eq (e : env) :
  candidates e =
  sort_newest_first
    (process_all e 0
       (filter (is_new (load_seen (state_file e))) (fetched e))).
Proof.
  unfold candidates.
  now destruct (run_loops_state e (load_seen (state_file e))) as (_ & _ & ->).
Qed.

(** Every item returned by a run was built by [process_post], at some
    reading of the clock, from a fetched record that was not in the ledger
    loaded at the start. *)
Lemma main_result_origin (e : env) (it : item) :
  In it (snd (main e)) ->
  exists pt post n,
    In (pt, post) (fetched e) /\
    PySet.mem (full_id pt post) (load_seen (state_file e)) = false /\
    process_post (now e n) post pt = Some it.
Proof.
  rewrite main_result. intros Hin. apply refine_In in Hin.
  rewrite candidates_eq in Hin.
  apply (Permutation_in _ (sort_newest_first_perm _)) in Hin.
  apply process_all_In in Hin. destruct Hin as ([pt post] & n & Hr & Hp).
  apply filter_In in Hr. destruct Hr as [Hfetched Hnew].
  exists pt, post, n. repeat split; try assumption.
  unfold is_new, key_of in Hnew. cbn [fst snd] in Hnew.
  now apply negb_true_iff in Hnew.
Qed.

(** X5.  No item returned by a run has its key in the ledger loaded at the
    start of the run, whatever the classifier answers. *)
Theorem main_skips_seen_items (e : env) (it : item) :
  In it (snd (main e)) ->
  PySet.mem (item_key it) (load_seen (state_file e)) = false.
Proof.
  intros Hin. apply main_result_origin in Hin.
  destruct Hin as (pt & post & n & _ & Hnew & Hp).
  apply process_post_Some in Hp. destruct Hp as (_ & _ & ->).
  exact Hnew.
Qed.

Lemma main_skips_seen_items_witness :
  exists it,
    In it (snd (main (sample_env None true (replying "0") PySet.newest_first))) /\
    PySet.mem (item_key it) (load_seen None) = false.
Proof.
  assert (H : exists it,
             snd (main (sample_env None true (replying "0") PySet.newest_first))
             = [it]) by (eexists; reflexivity).
  destruct H as [it H]. exists it.
  assert (Hin : In it (snd (main (sample_env None true (replying "0")
                                             PySet.newest_first))))
    by (rewrite H; now left).
  split; [exact Hin|].
  exact (main_skips_seen_items _ it Hin).
Defined.



(** X7.  Without a classifier, or when the call to it fails, a run returns
    all its candidates, newest first. *)
Theorem main_unrefined (e : env) :
  USE_LLM_FILTER e = false \/
  classify e (posts_text (candidates e)) = CallFailed ->
  snd (main e) = candidates e /\
  StronglySorted newer_or_equal (snd (main e)).
Proof.
  intros H.
  assert (Hsame : snd (main e) = candidates e).
  { rewrite main_result. destruct H as [H|H].
    - rewrite H. apply refine_disabled.
    - now apply refine_call_failed. }
  split; [exact Hsame|]. rewrite Hsame, candidates_eq.
  apply sort_newest_first_ordered.
Qed.

Lemma main_unrefined_witness :
  StronglySorted newer_or_equal
    (snd (main (sample_env None true failing PySet.insertion_order))).
Proof.
  apply (main_unrefined (sample_env None true failing PySet.insertion_order)).
  right. reflexivity.
Defined.

(** ** What a run does to the outside world *)

Lemma main_eq (e : env) :
  main e =
  (let r := llm_filter (USE_LLM_FILTER e) (classify e) (candidates e) in
   ([EvSaveSeen (save_seen (set_order e) (final_seen e))] ++ fst r
      ++ match snd r with [] => [] | _ => [EvWriteOutput (snd r)] end,
    snd r)).
Proof.
  unfold main. destruct (candidates e) as [|c cs]; [reflexivity|].
  now destruct (llm_filter (USE_LLM_FILTER e) (classify e) (c :: cs)).
Qed.

Lemma llm_filter_trace (use_llm_filter : bool)
    (classifier : list string -> call_result) (posts : list item) :
  fst (llm_filter use_llm_filter classifier posts) =
  match posts with
  | [] => []
  | _ => if use_llm_filter then [EvClassify (posts_text posts)] else []
  end.
Proof.
  unfold llm_filter. destruct posts; [reflexivity|]. now destruct use_llm_filter.
Qed.

Lemma posts_text_from_length (posts : list item) :
  forall i, List.length (posts_text_from i posts) = List.length posts.
Proof. induction posts as [|p posts IH]; intros i; simpl; [|rewrite IH]; reflexivity. Qed.

(** X8.  A run writes the output file exactly when it returns something,
    with exactly what it returns, and then exits with status 1; a run that
    returns nothing writes no output and exits with status 0. *)
Theorem main_output_and_exit_code (e : env) :
  (snd (main e) = [] ->
     written_outputs (fst (main e)) = [] /\ exit_code (snd (main e)) = 0%Z) /\
  (snd (main e) <> [] ->
     written_outputs (fst (main e)) = [snd (main e)] /\
     exit_code (snd (main e)) = 1%Z).
Proof.
  rewrite main_eq. cbn zeta. cbn [fst snd].
  rewrite llm_filter_trace.
  set (result := snd (llm_filter (USE_LLM_FILTER e) (classify e) (candidates e))).
  assert (Hcalls : written_outputs
            (match candidates e with
             | [] => []
             | _ => if USE_LLM_FILTER e
                    then [EvClassify (posts_text (candidates e))] else []
             end ++ match result with [] => [] | _ => [EvWriteOutput result] end)
          = match result with [] => [] | _ => [result] end).
  { destruct (candidates e); [|destruct (USE_LLM_FILTER e)];
      now destruct result. }
  cbn [app written_outputs]. rewrite Hcalls.
  split; intros H.
  - now rewrite H.
  - destruct result; [contradiction | now split].
Qed.

(** X9.  A run calls the classifier at most once, and only when the
    classifier is configured and there are candidates; the batch has one
    line for each candidate. *)
Theorem main_classifier_calls (e : env) :
  classify_calls (fst (main e)) =
    (if USE_LLM_FILTER e
     then match candidates e with
          | [] => []
          | _ => [posts_text (candidates e)]
          end
     else []) /\
  List.length (posts_text (candidates e)) = List.length (candidates e).
Proof.
  split; [|apply posts_text_from_length].
  rewrite main_eq. cbn zeta. cbn [fst snd app classify_calls].
  rewrite llm_filter_trace.
  set (result := snd (llm_filter (USE_LLM_FILTER e) (classify e) (candidates e))).
  destruct (USE_LLM_FILTER e); destruct (candidates e);
    now destruct result.
Qed.

(** ** Sets stay duplicate-free *)

Lemma add_NoDup (k : string) (s : PySet.t) : NoDup s -> NoDup (PySet.add k s).
Proof.
  intros Hnd. unfold PySet.add. destruct (PySet.mem k s) eqn:Hmem; [assumption|].
  apply (Permutation_NoDup (Permutation_cons_append s k)).
  constructor; [|assumption].
  rewrite <- mem_true_iff. congruence.
Qed.

Lemma add_all_NoDup (keys : list string) :
  forall s, NoDup s -> NoDup (PySet.add_all s keys).
Proof.
  unfold PySet.add_all.
  induction keys as [|k keys IH]; intros s Hnd; simpl; [assumption|].
  apply IH. now apply add_NoDup.
Qed.

Lemma load_seen_NoDup (file : option (list string)) : NoDup (load_seen file).
Proof.
  destruct file as [keys|]; simpl; [|constructor].
  apply add_all_NoDup. constructor.
Qed.

Lemma load_seen_In (file : option (list string)) (k : string) :
  In k (load_seen file) <->
  In k (match file with Some keys => keys | None => [] end).
Proof.
  destruct file as [keys|]; simpl; [|tauto].
  unfold PySet.of_list. rewrite add_all_In. simpl. tauto.
Qed.

Lemma final_seen_NoDup (e : env) : NoDup (final_seen e).
Proof.
  unfold final_seen, PySet.update. apply add_all_NoDup, load_seen_NoDup.
Qed.

Lemma last_n_NoDup {A} (n : nat) (l : list A) : NoDup l -> NoDup (last_n n l).
Proof.
  unfold last_n. intros Hnd.
  rewrite <- (firstn_skipn (List.length l - n) l) in Hnd.
  now apply NoDup_app_remove_l in Hnd.
Qed.

Lemma last_n_In {A} (n : nat) (l : list A) (x : A) :
  In x (last_n n l) -> In x l.
Proof.
  unfold last_n. intros H.
  rewrite <- (firstn_skipn (List.length l - n) l). apply in_or_app. now right.
Qed.

Lemma save_seen_NoDup (ord : PySet.order) (seen : PySet.t) :
  NoDup seen -> NoDup (save_seen ord seen).
Proof.
  intros Hnd. unfold save_seen. apply last_n_NoDup.
  apply (Permutation_NoDup (Permutation_sym (PySet.enum_perm ord seen)) Hnd).
Qed.

(** X10.  The ledger a run writes lists no key twice, even when the state
    file did; each of its keys comes from the state file or from a record
    fetched in the run; and their number is the smaller of 5000 and the
    number of distinct keys known at the end of the run. *)
Theorem written_ledger_wellformed (e : env) :
  exists keys,
    saved_ledgers (fst (main e)) = [keys] /\
    NoDup keys /\
    (forall k, In k keys ->
               In k (file_keys e) \/ In k (map key_of (fetched e))) /\
    List.length keys = Nat.min 5000 (List.length (final_seen e)).
Proof.
  destruct (main_trace e) as (rest & Htrace & Hrest).
  exists (save_seen (set_order e) (final_seen e)).
  split; [rewrite Htrace; simpl; now rewrite Hrest|].
  split; [apply save_seen_NoDup, final_seen_NoDup|].
  split; [|apply save_seen_length].
  intros k Hin. unfold save_seen in Hin. apply last_n_In in Hin.
  apply to_list_In in Hin. apply final_seen_In in Hin.
  rewrite load_seen_In in Hin. exact Hin.
Qed.

(** A state file that repeats a key is cleaned by the run. *)
Example main_cleans_repeated_keys :
  fst (main (sample_env (Some ["post_p1"; "x"; "post_p1"]) false failing
                        PySet.insertion_order))
  = [EvSaveSeen ["post_p1"; "x"; "comment_c1"]].
Proof. reflexivity. Qed.

(** X11.  As long as at most 5000 distinct keys are known at the end of a
    run, the ledger written holds exactly the keys of the state file and
    the keys of all records fetched: nothing is forgotten. *)
Theorem written_ledger_union (e : env) (k : string) :
  List.length (final_seen e) <= 5000 ->
  (In k (save_seen (set_order e) (final_seen e)) <->
   In k (file_keys e) \/ In k (map key_of (fetched e))).
Proof.
  intros Hlen. rewrite save_seen_all by exact Hlen.
  rewrite final_seen_In, load_seen_In. reflexivity.
Qed.

Lemma written_ledger_union_witness :
  In "old" (save_seen PySet.newest_first
              (final_seen (sample_env (Some ["old"]) false failing
                                      PySet.newest_first))).
Proof.
  apply (written_ledger_union
           (sample_env (Some ["old"]) false failing PySet.newest_first)).
  - vm_compute. lia.
  - left. simpl. auto.
Defined.

(** X12.  A second run that starts from the ledger written by a first run
    of at most 5000 known keys, and fetches no record the first did not
    fetch, returns nothing: it writes its ledger, calls no classifier,
    writes no output and exits with status 0, whatever its clock and its
    classifier are. *)
Theorem second_run_returns_nothing (e1 e2 : env) :
  List.length (final_seen e1) <= 5000 ->
  state_file e2 = Some (save_seen (set_order e1) (final_seen e1)) ->
  (forall r, In r (fetched e2) -> In r (fetched e1)) ->
  main e2 = ([EvSaveSeen (save_seen (set_order e2) (final_seen e2))], []) /\
  exit_code (snd (main e2)) = 0%Z.
Proof.
  intros Hlen Hfile Hfetched.
  assert (Hnone : filter (is_new (load_seen (state_file e2))) (fetched e2) = []).
  { induction (fetched e2) as [|r rs IH]; [reflexivity|].
    cbn [filter].
    assert (Hseen : is_new (load_seen (state_file e2)) r = false).
    { unfold is_new. apply negb_false_iff, mem_true_iff.
      rewrite Hfile. apply load_seen_In. apply save_seen_all; [exact Hlen|].
      apply final_seen_In. right. apply in_map. apply Hfetched. now left. }
    rewrite Hseen. apply IH. intros r' Hr'. apply Hfetched. now right. }
  assert (Hcand : candidates e2 = []).
  { rewrite candidates_eq, Hnone. reflexivity. }
  assert (Hmain : main e2 =
            ([EvSaveSeen (save_seen (set_order e2) (final_seen e2))], [])).
  { unfold main. now rewrite Hcand. }
  split; [exact Hmain | now rewrite Hmain].
Qed.

Lemma second_run_returns_nothing_witness :
  main (sample_env (Some ["post_p1"; "comment_c1"]) true (replying "0")
                   PySet.newest_first)
  = ([EvSaveSeen ["comment_c1"; "post_p1"]], []).
Proof.
  apply (second_run_returns_nothing
           (sample_env None false failing PySet.insertion_order)
           (sample_env (Some ["post_p1"; "comment_c1"]) true (replying "0")
                       PySet.newest_first)).
  - vm_compute. lia.
  - reflexivity.
  - intros r Hr. exact Hr.
Defined.

(** ** Ledger keys *)

(** X13.  Two records have the same ledger key exactly when they are of
    the same kind and have the same [id] (an absent [id] counting as the
    empty one): a post and a comment never share a key. *)
Theorem full_id_eq_iff (pt1 pt2 : post_type) (r1 r2 : raw_data) :
  full_id pt1 r1 = full_id pt2 r2 <->
  pt1 = pt2 /\ get (raw_id r1) "" = get (raw_id r2) "".
Proof.
  unfold full_id. split.
  - destruct pt1, pt2; simpl; intros H; try discriminate;
      split; try reflexivity; congruence.
  - intros [-> ->]. reflexivity.
Qed.

(** ** The keyword filter and letter case *)

Lemma lower_char_idempotent (c : ascii) :
  PyStr.lower_char (PyStr.lower_char c) = PyStr.lower_char c.
Proof.
  destruct c as [[] [] [] [] [] [] [] []]; reflexivity.
Qed.

Lemma lower_idempotent (s : string) : PyStr.lower (PyStr.lower s) = PyStr.lower s.
Proof.
  induction s as [|c s IH]; simpl; [reflexivity|].
  now rewrite lower_char_idempotent, IH.
Qed.

Lemma lower_app (a b : string) :
  PyStr.lower (a ++ b) = (PyStr.lower a ++ PyStr.lower b)%string.
Proof. induction a as [|c a IH]; simpl; [|rewrite IH]; reflexivity. Qed.

Lemma Substring_lower (v s : string) :
  Substring v s -> Substring (PyStr.lower v) (PyStr.lower s).
Proof.
  intros (a & b & ->). exists (PyStr.lower a), (PyStr.lower b).
  now rewrite !lower_app.
Qed.

(** X14.  The keyword filter ignores letter case: a text in which a
    negative keyword occurs in any mix of upper and lower case is rejected,
    and a text and its lower-cased form get the same answer. *)
Theorem is_relevant_ignores_case (text : string) :
  is_relevant (PyStr.lower text) = is_relevant text /\
  (forall v, Substring v text -> In (PyStr.lower v) SKIP_KEYWORDS ->
             is_relevant text = (false, [])).
Proof.
  split.
  - unfold is_relevant. now rewrite lower_idempotent.
  - intros v Hsub Hin. unfold is_relevant.
    replace (skip_loop SKIP_KEYWORDS (PyStr.lower text)) with true; [reflexivity|].
    symmetry. apply skip_loop_true_iff.
    exists (PyStr.lower v). split; [assumption | now apply Substring_lower].
Qed.

Lemma is_relevant_ignores_case_witness :
  is_relevant "Need a SubLet in Astoria" = (false, []).
Proof.
  apply (proj2 (is_relevant_ignores_case "Need a SubLet in Astoria") "SubLet").
  - exists "Need a ", " in Astoria". reflexivity.
  - simpl. auto 10.
Defined.

(** ** The numbers of the prompt, read back from the reply *)

Lemma string_app_assoc (a b c : string) :
  ((a ++ b) ++ c = a ++ (b ++ c))%string.
Proof. induction a as [|x a IH]; simpl; [|rewrite IH]; reflexivity. Qed.

Lemma all_chars_app (p : ascii -> bool) (a b : string) :
  PyStr.all_chars p (a ++ b) = PyStr.all_chars p a && PyStr.all_chars p b.
Proof.
  induction a as [|x a IH]; simpl; [reflexivity|].
  now rewrite IH, andb_assoc.
Qed.

(** What holds of a decimal digit. *)
Lemma ascii_digit_facts (c : ascii) :
  PyStr.is_ascii_digit c = true ->
  PyStr.is_space c = false /\
  (PyStr.code c =? 32)%N = false /\
  (PyStr.code c =? 44)%N = false /\
  PyStr.is_digit_char c = true /\
  PyStr.upper_char c = [PyStr.code c] /\
  (PyStr.code c =? 78)%N = false.
Proof.
  destruct c as [[] [] [] [] [] [] [] []]; intros H;
    try discriminate H; repeat split.
Qed.

Lemma digits_head (c : ascii) (s : string) :
  PyStr.all_chars PyStr.is_ascii_digit (String c s) = true ->
  PyStr.is_ascii_digit c = true /\
  PyStr.all_chars PyStr.is_ascii_digit s = true.
Proof. simpl. apply andb_true_iff. Qed.

Lemma digits_lstrip (s : string) :
  PyStr.all_chars PyStr.is_ascii_digit s = true -> PyStr.lstrip s = s.
Proof.
  destruct s as [|c s]; [reflexivity|]. intros H.
  apply digits_head in H. destruct H as [Hc _].
  apply ascii_digit_facts in Hc. simpl. now destruct Hc as (-> & _).
Qed.

Lemma digits_rstrip (s : string) :
  PyStr.all_chars PyStr.is_ascii_digit s = true -> PyStr.rstrip s = s.
Proof.
  induction s as [|c s IH]; [reflexivity|]. intros H.
  apply digits_head in H. destruct H as [Hc Hs].
  simpl. rewrite (IH Hs). apply ascii_digit_facts in Hc.
  destruct Hc as (-> & _). now destruct s.
Qed.

Lemma digits_strip (s : string) :
  PyStr.all_chars PyStr.is_ascii_digit s = true -> PyStr.strip s = s.
Proof.
  intros H. unfold PyStr.strip. rewrite (digits_lstrip s H).
  now apply digits_rstrip.
Qed.

Lemma digits_remove_spaces (s : string) :
  PyStr.all_chars PyStr.is_ascii_digit s = true -> PyStr.remove_spaces s = s.
Proof.
  induction s as [|c s IH]; [reflexivity|]. intros H.
  apply digits_head in H. destruct H as [Hc Hs].
  simpl. rewrite (IH Hs). apply ascii_digit_facts in Hc.
  now destruct Hc as (_ & -> & _).
Qed.

Lemma digits_split_commas (s : string) :
  PyStr.all_chars PyStr.is_ascii_digit s = true -> PyStr.split_commas s = [s].
Proof.
  induction s as [|c s IH]; [reflexivity|]. intros H.
  apply digits_head in H. destruct H as [Hc Hs].
  simpl. rewrite (IH Hs). apply ascii_digit_facts in Hc.
  now destruct Hc as (_ & _ & -> & _).
Qed.

Lemma digits_all_digit_chars (s : string) :
  PyStr.all_chars PyStr.is_ascii_digit s = true ->
  PyStr.all_chars PyStr.is_digit_char s = true.
Proof.
  induction s as [|c s IH]; [reflexivity|]. intros H.
  apply digits_head in H. destruct H as [Hc Hs].
  simpl. rewrite (IH Hs). apply ascii_digit_facts in Hc.
  now destruct Hc as (_ & _ & _ & -> & _).
Qed.

Lemma digits_isdigit (c : ascii) (s : string) :
  PyStr.all_chars PyStr.is_ascii_digit (String c s) = true ->
  PyStr.isdigit (String c s) = true.
Proof. intros H. unfold PyStr.isdigit. now apply digits_all_digit_chars. Qed.

Lemma digits_not_sentinel (c : ascii) (s : string) :
  PyStr.all_chars PyStr.is_ascii_digit (String c s) = true ->
  codes_eqb (PyStr.upper (String c s)) (PyStr.codes "NONE") = false.
Proof.
  intros H. apply digits_head in H. destruct H as [Hc _].
  apply ascii_digit_facts in Hc. destruct Hc as (_ & _ & _ & _ & Hup & Hn).
  simpl. rewrite Hup. cbn [app codes_eqb]. fold (PyStr.code "N").
  change (PyStr.code "N") with 78%N. now rewrite Hn.
Qed.

(** The digits that [str] prints. *)

Lemma digits_of_acc (fuel : nat) :
  forall (n : N) (acc : string),
    PyStr.digits_of fuel n acc = (PyStr.digits_of fuel n EmptyString ++ acc)%string.
Proof.
  induction fuel as [|fuel IH]; intros n acc; simpl; [reflexivity|].
  destruct (n <? 10)%N; [reflexivity|].
  rewrite IH, (IH _ (String _ EmptyString)), string_app_assoc. reflexivity.
Qed.

Lemma digit_code (n : N) :
  PyStr.code (ascii_of_N (48 + n mod 10)) = (48 + n mod 10)%N.
Proof.
  unfold PyStr.code. apply N_ascii_embedding.
  pose proof (N.mod_lt n 10). lia.
Qed.

Lemma digit_is_ascii_digit (n : N) :
  PyStr.is_ascii_digit (ascii_of_N (48 + n mod 10)) = true.
Proof.
  unfold PyStr.is_ascii_digit, PyStr.between. rewrite digit_code.
  assert (H : (n mod 10 < 10)%N) by (apply N.mod_lt; discriminate).
  apply andb_true_iff. split; apply N.leb_le.
  - apply N.le_add_r.
  - revert H. generalize (n mod 10)%N. intros r Hr. lia.
Qed.

Lemma digits_of_all_digits (fuel : nat) :
  forall n, PyStr.all_chars PyStr.is_ascii_digit
              (PyStr.digits_of fuel n EmptyString) = true.
Proof.
  induction fuel as [|fuel IH]; intros n; cbn [PyStr.digits_of].
  - cbn [PyStr.all_chars]. now rewrite digit_is_ascii_digit.
  - destruct (n <? 10)%N.
    + cbn [PyStr.all_chars]. now rewrite digit_is_ascii_digit.
    + rewrite digits_of_acc, all_chars_app, IH.
      cbn [PyStr.all_chars]. now rewrite digit_is_ascii_digit.
Qed.

Lemma digits_of_nonempty (fuel : nat) :
  forall n acc, exists c s, PyStr.digits_of fuel n acc = String c s.
Proof.
  induction fuel as [|fuel IH]; intros n acc; simpl; [eauto|].
  destruct (n <? 10)%N; [eauto | apply IH].
Qed.

Lemma decimal_value_snoc (s : string) :
  forall (acc : N) (c : ascii),
    PyStr.decimal_value acc (s ++ String c EmptyString) =
    (10 * PyStr.decimal_value acc s + (PyStr.code c - 48))%N.
Proof. induction s as [|d s IH]; intros acc c; simpl; [|rewrite IH]; reflexivity. Qed.

Lemma digits_of_value (fuel : nat) :
  forall n, N.to_nat n <= fuel ->
            PyStr.decimal_value 0 (PyStr.digits_of fuel n EmptyString) = n.
Proof.
  induction fuel as [|fuel IH]; intros n Hn.
  - assert (n = 0%N) as -> by lia. reflexivity.
  - cbn [PyStr.digits_of]. destruct (N.ltb_spec n 10) as [Hlt|Hge].
    + cbn [PyStr.decimal_value]. rewrite digit_code.
      rewrite N.mod_small by assumption. lia.
    + rewrite digits_of_acc, decimal_value_snoc, digit_code, IH.
      * rewrite (N.add_comm 48), N.add_sub. symmetry. now apply N.div_mod.
      * assert (n / 10 < n)%N by (apply N.div_lt; lia). lia.
Qed.

Lemma int_of_nat (i : nat) :
  String.length (PyStr.of_nat i) <= PyStr.INT_MAX_STR_DIGITS ->
  PyStr.int (PyStr.of_nat i) = Some (N.of_nat i).
Proof.
  intros Hlen. unfold PyStr.int.
  pose proof (digits_of_all_digits i (N.of_nat i)) as Hdigits.
  fold (PyStr.of_nat i) in Hdigits.
  rewrite (digits_strip _ Hdigits), Hdigits.
  destruct (digits_of_nonempty i (N.of_nat i) EmptyString) as (c & s & Hcs).
  fold (PyStr.of_nat i) in Hcs. rewrite Hcs in *.
  apply Nat.leb_le in Hlen. rewrite Hlen. rewrite <- Hcs.
  unfold PyStr.of_nat. rewrite digits_of_value by lia. reflexivity.
Qed.

Lemma parse_indices_of_nat (i : nat) :
  String.length (PyStr.of_nat i) <= PyStr.INT_MAX_STR_DIGITS ->
  parse_indices (PyStr.of_nat i) = Some [N.of_nat i].
Proof.
  intros Hlen.
  pose proof (digits_of_all_digits i (N.of_nat i)) as Hdigits.
  fold (PyStr.of_nat i) in Hdigits.
  unfold parse_indices, digit_fields.
  rewrite (digits_remove_spaces _ Hdigits), (digits_split_commas _ Hdigits).
  cbn [filter]. rewrite (digits_strip _ Hdigits).
  destruct (digits_of_nonempty i (N.of_nat i) EmptyString) as (c & s & Hcs).
  fold (PyStr.of_nat i) in Hcs.
  assert (Hisdigit : PyStr.isdigit (PyStr.of_nat i) = true).
  { rewrite Hcs in *. now apply digits_isdigit. }
  rewrite Hisdigit. cbn [ints_of].
  rewrite (digits_strip _ Hdigits), (int_of_nat i Hlen). reflexivity.
Qed.

Lemma posts_text_from_nth (posts : list item) :
  forall (k i : nat) (p : item),
    nth_error posts i = Some p ->
    nth_error (posts_text_from k posts) i =
    Some ("[" ++ PyStr.of_nat (k + i) ++ "] " ++ get (title p) "" ++ " | "
              ++ PyStr.take 300 (text p))%string.
Proof.
  induction posts as [|q posts IH]; intros k i p; destruct i as [|i]; simpl;
    try discriminate.
  - intros H. injection H as <-. now rewrite Nat.add_0_r.
  - intros H. rewrite (IH (S k) i p H). now rewrite Nat.add_succ_r.
Qed.

(** X15.  The numbers of the prompt and the indices of the reply agree:
    the line of the candidate at position [i] carries the number [i], and
    a reply made of that number selects exactly that candidate (and
    nothing when there is no such position). *)
Theorem reply_with_prompt_number (posts : list item) (i : nat) :
  String.length (PyStr.of_nat i) <= 4300 ->
  refine true (replying (PyStr.of_nat i)) posts =
    match nth_error posts i with
    | Some p => [p]
    | None => []
    end /\
  (forall p, nth_error posts i = Some p ->
     nth_error (posts_text posts) i =
     Some ("[" ++ PyStr.of_nat i ++ "] " ++ get (title p) "" ++ " | "
               ++ PyStr.take 300 (text p))%string).
Proof.
  intros Hlen. split; [|intros p Hp; now apply (posts_text_from_nth posts 0 i p)].
  destruct posts as [|q posts]; [now destruct i|].
  unfold refine, llm_filter, replying. cbn [negb snd].
  unfold select_by_reply.
  pose proof (digits_of_all_digits i (N.of_nat i)) as Hdigits.
  fold (PyStr.of_nat i) in Hdigits.
  rewrite (digits_strip _ Hdigits).
  destruct (digits_of_nonempty i (N.of_nat i) EmptyString) as (c & s & Hcs).
  fold (PyStr.of_nat i) in Hcs.
  assert (Hsent : codes_eqb (PyStr.upper (PyStr.of_nat i)) (PyStr.codes "NONE")
                  = false).
  { rewrite Hcs in *. now apply digits_not_sentinel. }
  rewrite Hsent, (parse_indices_of_nat i Hlen).
  cbn [pick]. rewrite Nat2N.id.
  destruct (N.ltb_spec (N.of_nat i) (N.of_nat (List.length (q :: posts))))
    as [Hlt|Hge].
  - reflexivity.
  - replace (nth_error (q :: posts) i) with (@None item); [reflexivity|].
    symmetry. apply nth_error_None. lia.
Qed.

Lemma reply_with_prompt_number_witness :
  refine true (replying "1") three_items = [item1].
Proof.
  apply (proj1 (reply_with_prompt_number three_items 1 ltac:(vm_compute; lia))).
Defined.

(** ** Instances on the sample run *)


Lemma main_output_and_exit_code_witness :
  written_outputs
    (fst (main (sample_env None false failing PySet.insertion_order)))
  = [snd (main (sample_env None false failing PySet.insertion_order))] /\
  exit_code (snd (main (sample_env None false failing PySet.insertion_order)))
  = 1%Z.
Proof.
  apply (proj2 (main_output_and_exit_code
                  (sample_env None false failing PySet.insertion_order))).
  vm_compute. discriminate.
Defined.
